(** * EmailService: bounce suppression and e-mail eligibility

    A shallow embedding of [packages/backend/src/core/EmailService.ts]:
    the three methods [sendEmail], [validateEmailForAccount] and
    [checkEmailBounce], written in a state-and-exception monad over a
    [World] that holds everything the class talks to (the process
    environment, the clock, the DynamoDB bounce table, the user-profile
    repository, the site metadata, the address validator, SES and the
    logger). *)

From Stdlib Require Import ZArith Lia.
From stdpp Require Import base option list strings gmap fin_maps pretty.

Local Open Scope Z_scope.

Module EmailService.

(** ** Values thrown and returned *)

(** A JavaScript [Error] object (AWS SDK exceptions carry a [name]). *)
Record Error := mkError { err_name : string; err_message : string }.

Definition new_Error (msg : string) : Error := mkError "Error" msg.

(** What an [async] function resolves to when it has no [return]. *)
Inductive JsValue :=
  | JsUndefined
  | JsString (s : string).

(** ** DynamoDB *)

Inductive AttributeValue :=
  | AttrS (s : string)
  | AttrN (n : string).

Record GetItemInput := mkGetItem {
  get_TableName : string;
  get_Key : gmap string AttributeValue
}.

Record GetItemOutput := mkGetItemOutput {
  Item : option (gmap string AttributeValue)
}.

Record UpdateItemInput := mkUpdateItem {
  upd_TableName : string;
  upd_Key : gmap string AttributeValue;
  UpdateExpression : string;
  ExpressionAttributeNames : gmap string string;
  ExpressionAttributeValues : gmap string AttributeValue
}.

Inductive DynamoCommand :=
  | GetItemCommand (i : GetItemInput)
  | UpdateItemCommand (i : UpdateItemInput).

(** ** SES *)

Record Content := mkContent { Data : string; Charset : string }.

Record SendEmailInput := mkSendEmail {
  Source : option string;
  ToAddresses : list string;
  Subject : Content;
  BodyText : Content;
  BodyHtml : Content
}.

Record SendEmailOutput := mkSendEmailOutput { MessageId : option string }.

(** ** Site metadata, configuration, repository rows, validator *)

Record Meta := mkMeta {
  enableActiveEmailValidation : bool;
  meta_email : option string;
  logoImageUrl : option string;
  meta_iconUrl : option string
}.

Record Config := mkConfig { url : string; host : string }.

Record UserProfile := mkUserProfile {
  profile_email : option string;
  emailVerified : bool
}.

(** The options object handed to deep-email-validator's [validate]. *)
Record ValidatorOptions := mkValidatorOptions {
  opt_email : string;
  validateRegex : bool;
  validateMx : bool;
  validateTypo : bool;
  validateDisposable : bool;
  validateSMTP : bool
}.

(** Its result: [reason] is a string, [null] or [undefined] ([None]). *)
Record OutputFormat := mkOutput {
  valid : bool;
  out_reason : option string
}.

Inductive LogEntry :=
  | LogError (msg : string)
  | LogErrorObj (e : Error)
  | LogInfo (msg : string).

(** ** The verdict of [validateEmailForAccount] *)

Inductive Reason := used | format | disposable | mx | smtp.

Record Verdict := mkVerdict {
  available : bool;
  reason : option Reason
}.

#[global] Instance Reason_eq_dec : EqDecision Reason.
Proof. solve_decision. Defined.

(** ** The world *)

Record World := mkWorld {
  env : gmap string string;
  clock_ms : Z;
  ddb_items : gmap (string * (string * string)) (gmap string AttributeValue);
  ddb_fault : DynamoCommand → option Error;
  ddb_calls : list DynamoCommand;
  profiles : list UserProfile;
  profiles_fault : option Error;
  meta_reply : bool → Error + Meta;
  validator_reply : ValidatorOptions → Error + OutputFormat;
  ses_reply : SendEmailInput → Error + SendEmailOutput;
  ses_calls : list SendEmailInput;
  logs : list LogEntry
}.

Definition set_ddb (items : gmap (string * (string * string)) (gmap string AttributeValue))
    (calls : list DynamoCommand) (w : World) : World :=
  mkWorld (env w) (clock_ms w) items (ddb_fault w) calls
          (profiles w) (profiles_fault w) (meta_reply w) (validator_reply w)
          (ses_reply w) (ses_calls w) (logs w).

Definition set_ses_calls (calls : list SendEmailInput) (w : World) : World :=
  mkWorld (env w) (clock_ms w) (ddb_items w) (ddb_fault w) (ddb_calls w)
          (profiles w) (profiles_fault w) (meta_reply w) (validator_reply w)
          (ses_reply w) calls (logs w).

Definition set_logs (l : list LogEntry) (w : World) : World :=
  mkWorld (env w) (clock_ms w) (ddb_items w) (ddb_fault w) (ddb_calls w)
          (profiles w) (profiles_fault w) (meta_reply w) (validator_reply w)
          (ses_reply w) (ses_calls w) l.

(** ** The monad: state passing with exceptions *)

Inductive Outcome (A : Type) :=
  | Ok (a : A)
  | Throw (e : Error).
Arguments Ok {A} a.
Arguments Throw {A} e.

Definition M (A : Type) : Type := World → Outcome A * World.

#[global] Instance M_ret : MRet M := λ A a w, (Ok a, w).

#[global] Instance M_bind : MBind M := λ A B f m w,
  match m w with
  | (Ok a, w') => f a w'
  | (Throw e, w') => (Throw e, w')
  end.

Definition throw {A} (e : Error) : M A := λ w, (Throw e, w).

(** [try { m } catch (err) { h err }] *)
Definition try_catch {A} (m : M A) (h : Error → M A) : M A := λ w,
  match m w with
  | (Throw e, w') => h e w'
  | r => r
  end.

(** An awaited collaborator reply: a rejection is thrown. *)
Definition await {A} (r : Error + A) : M A :=
  match r with
  | inl e => throw e
  | inr a => mret a
  end.

(** ** Collaborators *)

(** [process.env.NAME] *)
Definition process_env (name : string) : M (option string) :=
  λ w, (Ok (env w !! name), w).

(** [!s] for [s : string | undefined]. *)
Definition falsy (s : option string) : bool :=
  match s with
  | None => true
  | Some EmptyString => true
  | Some _ => false
  end.

(** [Date.now()], in milliseconds. *)
Definition Date_now : M Z := λ w, (Ok (clock_ms w), w).

(** The table has partition key [email] and sort key [category]. *)
Definition key_of (k : gmap string AttributeValue) : option (string * string) :=
  match k !! "email", k !! "category" with
  | Some (AttrS e), Some (AttrS c) => Some (e, c)
  | _, _ => None
  end.

Definition ValidationException : Error :=
  mkError "ValidationException" "The provided key element does not match the schema".

(** The store's answer to [GetItem]. *)
Definition ddb_get (i : GetItemInput) (w : World) : Error + GetItemOutput :=
  match ddb_fault w (GetItemCommand i) with
  | Some e => inl e
  | None =>
      match key_of (get_Key i) with
      | None => inl ValidationException
      | Some k => inr (mkGetItemOutput (ddb_items w !! (get_TableName i, k)))
      end
  end.

(** The store's reaction to [UpdateItem] with a [SET #n = :v] expression:
    the attribute is written on the item under the key, which is created
    from the key attributes when absent. *)
Definition ddb_update (i : UpdateItemInput) (w : World)
    : Error + gmap (string * (string * string)) (gmap string AttributeValue) :=
  match ddb_fault w (UpdateItemCommand i) with
  | Some e => inl e
  | None =>
      match key_of (upd_Key i) with
      | None => inl ValidationException
      | Some k =>
          if decide (UpdateExpression i = "SET #TL = :tl") then
            match ExpressionAttributeNames i !! "#TL",
                  ExpressionAttributeValues i !! ":tl" with
            | Some attr, Some v =>
                let old := default (upd_Key i) (ddb_items w !! (upd_TableName i, k)) in
                inr (<[(upd_TableName i, k) := <[attr := v]> old]> (ddb_items w))
            | _, _ => inl ValidationException
            end
          else inl ValidationException
      end
  end.

(** [this.dynamoDb.send(new GetItemCommand(i))] *)
Definition dynamoDb_send_get (i : GetItemInput) : M GetItemOutput := λ w,
  let w' := set_ddb (ddb_items w) (ddb_calls w ++ [GetItemCommand i]) w in
  match ddb_get i w with
  | inl e => (Throw e, w')
  | inr r => (Ok r, w')
  end.

(** [this.dynamoDb.send(new UpdateItemCommand(i))] *)
Definition dynamoDb_send_update (i : UpdateItemInput) : M unit := λ w,
  let calls := ddb_calls w ++ [UpdateItemCommand i] in
  match ddb_update i w with
  | inl e => (Throw e, set_ddb (ddb_items w) calls w)
  | inr items => (Ok tt, set_ddb items calls w)
  end.

(** ** [checkEmailBounce] *)

Definition bounce_key (emailAddress : string) : gmap string AttributeValue :=
  <["email" := AttrS emailAddress]> (<["category" := AttrS "Bounce_Info"]> ∅).

Definition checkEmailBounce (emailAddress : string) : M bool :=
  tableName ← process_env "BOUNCE_TABLE_NAME";
  if falsy tableName then mret false else
  let tableName := default EmptyString tableName in
  let getItemCmd := mkGetItem tableName (bounce_key emailAddress) in
  getItemRes ← dynamoDb_send_get getItemCmd;
  if negb (bool_decide (is_Some (Item getItemRes))) then mret false else
  now ← Date_now;
  let endTime := now / 1000 + 86400 * 7 in
  let updateItemCmd :=
    mkUpdateItem tableName (bounce_key emailAddress)
      "SET #TL = :tl"
      (<["#TL" := "ttl"]> ∅)
      (<[":tl" := AttrN (pretty endTime)]> ∅) in
  dynamoDb_send_update updateItemCmd;;
  mret true.

(** [this.metaService.fetch(noCache)] *)
Definition metaService_fetch (noCache : bool) : M Meta :=
  λ w, await (meta_reply w noCache) w.

(** [this.userProfilesRepository.countBy({ emailVerified, email })] *)
Definition countBy (verified : bool) (email : string) (rows : list UserProfile) : Z :=
  Z.of_nat (length (filter
    (λ p, emailVerified p = verified ∧ profile_email p = Some email) rows)).

Definition userProfilesRepository_countBy (verified : bool) (email : string) : M Z :=
  λ w, match profiles_fault w with
       | Some e => (Throw e, w)
       | None => (Ok (countBy verified email (profiles w)), w)
       end.

(** [validateEmail(options)] of deep-email-validator *)
Definition validateEmail (o : ValidatorOptions) : M OutputFormat :=
  λ w, await (validator_reply w o) w.

(** [this.client.send(new SendEmailCommand(i))] *)
Definition client_send (i : SendEmailInput) : M SendEmailOutput := λ w,
  let w' := set_ses_calls (ses_calls w ++ [i]) w in
  match ses_reply w i with
  | inl e => (Throw e, w')
  | inr r => (Ok r, w')
  end.

Definition logger_error (msg : string) : M unit :=
  λ w, (Ok tt, set_logs (logs w ++ [LogError msg]) w).

Definition logger_error_obj (e : Error) : M unit :=
  λ w, (Ok tt, set_logs (logs w ++ [LogErrorObj e]) w).

Definition logger_info (msg : string) : M unit :=
  λ w, (Ok tt, set_logs (logs w ++ [LogInfo msg]) w).

(** A template-literal hole holding [string | undefined]. *)
Definition js_string (s : option string) : string := default "undefined" s.

(** ** [validateEmailForAccount] *)

(** The options of the call at lines 181-188. *)
Definition validator_options (emailAddress : string) : ValidatorOptions :=
  mkValidatorOptions emailAddress true true false true false.

(** [validated.reason === s] *)
Definition reason_is (validated : OutputFormat) (s : string) : bool :=
  bool_decide (out_reason validated = Some s).

(** Lines 190-202: the verdict computed from the three gathered values. *)
Definition verdict (exist : Z) (checkBounce : bool) (validated : OutputFormat) : Verdict :=
  let available := (exist =? 0) && valid validated && negb checkBounce in
  mkVerdict available
    (if available then None else
     if negb (exist =? 0) then Some used else
     if checkBounce then Some smtp else
     if reason_is validated "regex" then Some format else
     if reason_is validated "disposable" then Some disposable else
     if reason_is validated "mx" then Some mx else
     if reason_is validated "smtp" then Some smtp else
     None).

Definition validateEmailForAccount (emailAddress : string) : M Verdict :=
  meta ← metaService_fetch false;
  exist ← userProfilesRepository_countBy true emailAddress;
  checkBounce ← checkEmailBounce emailAddress;
  validated ← (if enableActiveEmailValidation meta
               then validateEmail (validator_options emailAddress)
               else mret (mkOutput true None));
  mret (verdict exist checkBounce validated).

(** ** [sendEmail] *)

(** The double-quote character, code 34. *)
Definition dq : string := String (Ascii.ascii_of_nat 34) EmptyString.

Section Service.

Variable config : Config.

Definition htmlData (meta : Meta) (iconUrl emailSettingUrl subject html : string) : string :=
  "<!doctype html>
<html>
	<head>
		<meta charset=" +:+
  dq +:+
  "utf-8" +:+
  dq +:+
  ">
		<title>" +:+
  subject +:+
  "</title>
		<style>
			html {
				background: #eee;
			}

			body {
				padding: 16px;
				margin: 0;
				font-family: sans-serif;
				font-size: 14px;
			}

			a {
				text-decoration: none;
				color: #86b300;
			}
			a:hover {
				text-decoration: underline;
			}

			main {
				max-width: 500px;
				margin: 0 auto;
				background: #fff;
				color: #555;
			}
				main > header {
					padding: 32px;
					background: #86b300;
				}
					main > header > img {
						max-width: 128px;
						max-height: 28px;
						vertical-align: bottom;
					}
				main > article {
					padding: 32px;
				}
					main > article > h1 {
						margin: 0 0 1em 0;
					}
				main > footer {
					padding: 32px;
					border-top: solid 1px #eee;
				}

			nav {
				box-sizing: border-box;
				max-width: 500px;
				margin: 16px auto 0 auto;
				padding: 0 32px;
			}
				nav > a {
					color: #888;
				}
		</style>
	</head>
	<body>
		<main>
			<header>
				<img src=" +:+
  dq +:+
  (default (default iconUrl (meta_iconUrl meta)) (logoImageUrl meta)) +:+
  dq +:+
  "/>
			</header>
			<article>
				<h1>" +:+
  subject +:+
  "</h1>
				<div>" +:+
  html +:+
  "</div>
			</article>
			<footer>
				<a href=" +:+
  dq +:+
  emailSettingUrl +:+
  dq +:+
  ">" +:+
  "Email setting" +:+
  "</a>
			</footer>
		</main>
		<nav>
			<a href=" +:+
  dq +:+
  (url config) +:+
  dq +:+
  ">" +:+
  (host config) +:+
  "</a>
		</nav>
	</body>
</html>".

Definition sendEmailCommand (meta : Meta) (to subject text html_data : string)
    : SendEmailInput :=
  mkSendEmail (meta_email meta) [to]
    (mkContent subject "UTF-8")
    (mkContent text "UTF-8")
    (mkContent html_data "UTF-8").

Definition suppressed_message (to : string) : string :=
  "Email address " +:+ to +:+ " is registered on bounce table.".

Definition sendEmail (to subject html text : string) : M JsValue :=
  meta ← metaService_fetch true;
  let iconUrl := url config +:+ "/static-assets/mi-white.png" in
  let emailSettingUrl := url config +:+ "/settings/email" in
  checkRes ← checkEmailBounce to;
  if checkRes : bool then
    logger_error (suppressed_message to);;
    throw (new_Error (suppressed_message to))
  else
    try_catch
      (let command :=
         sendEmailCommand meta to subject text
           (htmlData meta iconUrl emailSettingUrl subject html) in
       sesRes ← client_send command;
       logger_info ("Message sent: " +:+ js_string (MessageId sesRes));;
       mret JsUndefined)
      (λ err, logger_error_obj err;; throw err).

End Service.

(** * Properties *)

(** ** Vocabulary of the statements *)

(** The lookup and the refresh that [checkEmailBounce] sends for an
    address, the table name and the clock reading. *)
Definition getItemCmd (tableName emailAddress : string) : GetItemInput :=
  mkGetItem tableName (bounce_key emailAddress).

Definition updateItemCmd (tableName emailAddress : string) (now_ms : Z)
    : UpdateItemInput :=
  mkUpdateItem tableName (bounce_key emailAddress)
    "SET #TL = :tl"
    (<["#TL" := "ttl"]> ∅)
    (<[":tl" := AttrN (pretty (now_ms / 1000 + 604800))]> ∅).

(** Where the bounce record of an address lives in the table. *)
Definition record_key (tableName emailAddress : string)
    : string * (string * string) :=
  (tableName, (emailAddress, "Bounce_Info")).

(** The bounce table is configured under the name [t]. *)
Definition configured (w : World) (t : string) : Prop :=
  env w !! "BOUNCE_TABLE_NAME" = Some t ∧ falsy (Some t) = false.

(** The store calls made between two worlds, and the updates among them. *)
Definition issued (w w' : World) : list DynamoCommand :=
  drop (length (ddb_calls w)) (ddb_calls w').

Definition updates_of (l : list DynamoCommand) : list UpdateItemInput :=
  omap (λ c, match c with UpdateItemCommand i => Some i | _ => None end) l.

(** ** Sample worlds

    A site with a bounce table named [bounces], a clock at
    1700000000123 ms, and collaborators that answer. *)

Definition cfg0 : Config := mkConfig "https://misskey.example" "misskey.example".

Definition meta0 : Meta := mkMeta true (Some "noreply@misskey.example") None None.

Definition env0 : gmap string string := <["BOUNCE_TABLE_NAME" := "bounces"]> ∅.

(** A record left by the bounce handler, with an old deadline. *)
Definition item0 : gmap string AttributeValue :=
  <["ttl" := AttrN "1700000100"]> (bounce_key "bounced@example.com").

Definition items0 : gmap (string * (string * string)) (gmap string AttributeValue) :=
  <[record_key "bounces" "bounced@example.com" := item0]> ∅.

Definition no_fault : DynamoCommand → option Error := λ _, None.

Definition ServiceUnavailable : Error :=
  mkError "ServiceUnavailable" "The service is currently unavailable".

Definition lookup_fault : DynamoCommand → option Error := λ c,
  match c with
  | GetItemCommand _ => Some ServiceUnavailable
  | UpdateItemCommand _ => None
  end.

Definition validator_ok : ValidatorOptions → Error + OutputFormat :=
  λ _, inr (mkOutput true None).

Definition validator_says (r : string) : ValidatorOptions → Error + OutputFormat :=
  λ _, inr (mkOutput false (Some r)).

Definition world_of (e : gmap string string)
    (items : gmap (string * (string * string)) (gmap string AttributeValue))
    (fault : DynamoCommand → option Error)
    (rows : list UserProfile)
    (validator : ValidatorOptions → Error + OutputFormat) : World :=
  mkWorld e 1700000000123 items fault [] rows None
    (λ _, inr meta0) validator
    (λ _, inr (mkSendEmailOutput (Some "0100018f-0001")))
    [] [].

Definition w_hit : World := world_of env0 items0 no_fault [] validator_ok.
Definition w_clean : World := world_of env0 ∅ no_fault [] validator_ok.
Definition w_unset : World := world_of ∅ items0 no_fault [] validator_ok.
Definition w_down : World := world_of env0 items0 lookup_fault [] validator_ok.

(** Everything but the table and the list of store calls is left alone. *)
Definition same_outside_store (w w' : World) : Prop :=
  w' = set_ddb (ddb_items w') (ddb_calls w') w.

(** ** The decision rule in the specification's terms *)

(** The five values of the format check, as the specification names them. *)
Inductive FormatResult :=
  | fr_valid
  | fr_invalid_format
  | fr_disposable
  | fr_invalid_mx
  | fr_invalid_smtp.

#[global] Instance FormatResult_eq_dec : EqDecision FormatResult.
Proof. solve_decision. Defined.

(** How a validator result reads as one of the five: the [valid] flag
    first, then the reason strings the code tests for. A result that is
    invalid with any other reason, or with none, is none of the five. *)
Definition formatResult_of (v : OutputFormat) : option FormatResult :=
  if valid v then Some fr_valid
  else if reason_is v "regex" then Some fr_invalid_format
  else if reason_is v "disposable" then Some fr_disposable
  else if reason_is v "mx" then Some fr_invalid_mx
  else if reason_is v "smtp" then Some fr_invalid_smtp
  else None.

(** [available = (alreadyVerifiedCount == 0) AND formatResult == valid
    AND NOT isSuppressed] *)
Definition spec_available (alreadyVerifiedCount : Z) (isSuppressed : bool)
    (formatResult : FormatResult) : bool :=
  bool_decide (alreadyVerifiedCount = 0)
  && bool_decide (formatResult = fr_valid)
  && negb isSuppressed.

(** The precedence table, top to bottom. *)
Definition spec_precedence (alreadyVerifiedCount : Z) (isSuppressed : bool)
    (formatResult : FormatResult) : list (bool * Reason) :=
  [ (bool_decide (alreadyVerifiedCount ≠ 0), used);
    (isSuppressed, smtp);
    (bool_decide (formatResult = fr_invalid_format), format);
    (bool_decide (formatResult = fr_disposable), disposable);
    (bool_decide (formatResult = fr_invalid_mx), mx);
    (bool_decide (formatResult = fr_invalid_smtp), smtp) ].

(** First matching row wins; [None] when no row matches. *)
Fixpoint first_match (rules : list (bool * Reason)) : option Reason :=
  match rules with
  | [] => None
  | (true, r) :: _ => Some r
  | (false, _) :: rest => first_match rest
  end.

(** The format result [validateEmailForAccount] gathers: the validator's
    reply, or a valid result when active validation is switched off. *)
Definition validated_of (w : World) (m : Meta) (emailAddress : string)
    : Error + OutputFormat :=
  if enableActiveEmailValidation m
  then validator_reply w (validator_options emailAddress)
  else inr (mkOutput true None).

(** Worlds for the evaluator: the address is verified on an account, or
    the validator rejects it. *)
Definition rows_taken : list UserProfile :=
  [mkUserProfile (Some "bounced@example.com") true;
   mkUserProfile (Some "bounced@example.com") false;
   mkUserProfile (Some "carol@example.com") true].

Definition w_hit_used : World :=
  world_of env0 items0 no_fault rows_taken (validator_says "regex").

Definition w_disposable : World :=
  world_of env0 ∅ no_fault [] (validator_says "disposable").

(** ** More worlds: a later clock, and collaborators that fail *)

Definition set_clock (now_ms : Z) (w : World) : World :=
  mkWorld (env w) now_ms (ddb_items w) (ddb_fault w) (ddb_calls w)
          (profiles w) (profiles_fault w) (meta_reply w) (validator_reply w)
          (ses_reply w) (ses_calls w) (logs w).

Definition update_fault : DynamoCommand → option Error := λ c,
  match c with
  | GetItemCommand _ => None
  | UpdateItemCommand _ => Some ServiceUnavailable
  end.

Definition MessageRejected : Error :=
  mkError "MessageRejected" "Email address is not verified.".

Definition QueryFailedError : Error :=
  mkError "QueryFailedError" "connection terminated".

Definition DnsTimeout : Error := mkError "Error" "queryMx ETIMEOUT".

Definition meta_off : Meta :=
  mkMeta false (Some "noreply@misskey.example") None None.

Definition w_update_down : World :=
  world_of env0 items0 update_fault [] validator_ok.

Definition w_ses_down : World :=
  mkWorld env0 1700000000123 ∅ no_fault [] [] None
    (λ _, inr meta0) validator_ok (λ _, inl MessageRejected) [] [].

Definition w_validator_down : World :=
  world_of env0 items0 no_fault [] (λ _, inl DnsTimeout).

Definition w_validation_off : World :=
  mkWorld env0 1700000000123 ∅ no_fault [] [] None
    (λ _, inr meta_off) (λ _, inl DnsTimeout)
    (λ _, inr (mkSendEmailOutput (Some "0100018f-0001"))) [] [].

Definition w_profiles_down : World :=
  mkWorld env0 1700000000123 items0 no_fault [] [] (Some QueryFailedError)
    (λ _, inr meta0) validator_ok
    (λ _, inr (mkSendEmailOutput (Some "0100018f-0001"))) [] [].

(** ** The store *)

Lemma key_of_bounce_key a : key_of (bounce_key a) = Some (a, "Bounce_Info").
Proof.
  unfold key_of, bounce_key.
  rewrite lookup_insert_eq, lookup_insert_ne, lookup_insert_eq by done.
  reflexivity.
Qed.

Lemma issued_app w w' l : ddb_calls w' = ddb_calls w ++ l → issued w w' = l.
Proof. unfold issued. intros ->. by rewrite drop_app_length. Qed.

Lemma ddb_get_bounce w t a :
  ddb_get (getItemCmd t a) w =
    match ddb_fault w (GetItemCommand (getItemCmd t a)) with
    | Some e => inl e
    | None => inr (mkGetItemOutput (ddb_items w !! record_key t a))
    end.
Proof. unfold ddb_get. simpl. by rewrite key_of_bounce_key. Qed.

Lemma ddb_update_bounce w t a now :
  ddb_update (updateItemCmd t a now) w =
    match ddb_fault w (UpdateItemCommand (updateItemCmd t a now)) with
    | Some e => inl e
    | None =>
        inr (<[record_key t a :=
                 <["ttl" := AttrN (pretty (now / 1000 + 604800))]>
                   (default (bounce_key a) (ddb_items w !! record_key t a))]>
               (ddb_items w))
    end.
Proof.
  unfold ddb_update. simpl. rewrite key_of_bounce_key.
  by rewrite !lookup_insert_eq.
Qed.

(** ** [checkEmailBounce], case by case *)

Lemma checkEmailBounce_unconfigured w a :
  falsy (env w !! "BOUNCE_TABLE_NAME") = true →
  checkEmailBounce a w = (Ok false, w).
Proof.
  intros Hf. unfold checkEmailBounce, mbind, M_bind, process_env.
  by rewrite Hf.
Qed.

Lemma checkEmailBounce_configured w t a :
  configured w t →
  checkEmailBounce a w =
    let w1 := set_ddb (ddb_items w)
                (ddb_calls w ++ [GetItemCommand (getItemCmd t a)]) w in
    match ddb_get (getItemCmd t a) w with
    | inl e => (Throw e, w1)
    | inr (mkGetItemOutput None) => (Ok false, w1)
    | inr (mkGetItemOutput (Some _)) =>
        let cmd := updateItemCmd t a (clock_ms w) in
        let calls := ddb_calls w1 ++ [UpdateItemCommand cmd] in
        match ddb_update cmd w1 with
        | inl e => (Throw e, set_ddb (ddb_items w1) calls w1)
        | inr items => (Ok true, set_ddb items calls w1)
        end
    end.
Proof.
  intros [Henv Hf]. unfold checkEmailBounce, mbind, M_bind, process_env.
  rewrite Henv, Hf. simpl.
  unfold dynamoDb_send_get. fold (getItemCmd t a).
  destruct (ddb_get (getItemCmd t a) w) as [e|[[item|]]]; simpl; try done.
  unfold dynamoDb_send_update, Date_now. simpl.
  change (86400 * 7) with 604800. fold (updateItemCmd t a (clock_ms w)).
  by destruct (ddb_update _ _).
Qed.

Lemma issued_refl w : issued w w = [].
Proof. unfold issued. apply drop_all. Qed.

Lemma checkEmailBounce_hit w t a (item : gmap string AttributeValue) :
  configured w t →
  ddb_items w !! record_key t a = Some item →
  ddb_fault w (GetItemCommand (getItemCmd t a)) = None →
  ddb_fault w (UpdateItemCommand (updateItemCmd t a (clock_ms w))) = None →
  checkEmailBounce a w =
    (Ok true,
     set_ddb
       (<[record_key t a :=
            <["ttl" := AttrN (pretty (clock_ms w / 1000 + 604800))]> item]>
          (ddb_items w))
       (ddb_calls w ++ [GetItemCommand (getItemCmd t a);
                        UpdateItemCommand (updateItemCmd t a (clock_ms w))])
       w).
Proof.
  intros Hc Hi Hg Hu.
  rewrite (checkEmailBounce_configured w t a Hc).
  rewrite ddb_get_bounce, Hg, Hi. cbv zeta.
  rewrite ddb_update_bounce. simpl ddb_fault. rewrite Hu.
  simpl ddb_items. rewrite Hi. simpl.
  by rewrite <- app_assoc.
Qed.

Lemma checkEmailBounce_miss w t a :
  configured w t →
  ddb_items w !! record_key t a = None →
  ddb_fault w (GetItemCommand (getItemCmd t a)) = None →
  checkEmailBounce a w =
    (Ok false,
     set_ddb (ddb_items w) (ddb_calls w ++ [GetItemCommand (getItemCmd t a)]) w).
Proof.
  intros Hc Hi Hg.
  rewrite (checkEmailBounce_configured w t a Hc).
  by rewrite ddb_get_bounce, Hg, Hi.
Qed.

Lemma checkEmailBounce_lookup_error w t a e :
  configured w t →
  ddb_get (getItemCmd t a) w = inl e →
  checkEmailBounce a w =
    (Throw e,
     set_ddb (ddb_items w) (ddb_calls w ++ [GetItemCommand (getItemCmd t a)]) w).
Proof.
  intros Hc He.
  rewrite (checkEmailBounce_configured w t a Hc).
  by rewrite He.
Qed.

Lemma same_outside_store_refl w : same_outside_store w w.
Proof. unfold same_outside_store. by destruct w. Qed.

Lemma checkEmailBounce_frame a w :
  same_outside_store w (checkEmailBounce a w).2.
Proof.
  unfold checkEmailBounce, mbind, M_bind, process_env.
  destruct (falsy _); [apply same_outside_store_refl|].
  unfold dynamoDb_send_get.
  destruct (ddb_get _ w) as [e|[[item|]]]; simpl; try done.
  unfold dynamoDb_send_update, Date_now. simpl.
  by destruct (ddb_update _ _).
Qed.

(** ** What [sendEmail] does to the store *)

Lemma sendEmail_after_gate cfg w m (to subject html text : string) :
  meta_reply w true = inr m →
  ∃ r w1 w',
    checkEmailBounce to w = (r, w1) ∧
    (sendEmail cfg to subject html text w).2 = w' ∧
    ddb_items w' = ddb_items w1 ∧ ddb_calls w' = ddb_calls w1.
Proof.
  intros Hm. unfold sendEmail, mbind, M_bind, metaService_fetch, await.
  rewrite Hm. unfold mret at 1. unfold M_ret at 1.
  destruct (checkEmailBounce to w) as [[[|]|e] w1] eqn:Hc.
  - eexists _, w1, _. split; [done|]. split; [done|]. by simpl.
  - eexists _, w1, _. split; [done|]. split; [done|].
    unfold try_catch, client_send, logger_info, logger_error_obj, throw.
    simpl. by destruct (ses_reply w1 _).
  - eexists _, w1, _. split; [done|]. split; [done|]. by simpl.
Qed.

Lemma sendEmail_meta_down cfg w e (to subject html text : string) :
  meta_reply w true = inl e →
  sendEmail cfg to subject html text w = (Throw e, w).
Proof.
  intros Hm. unfold sendEmail, mbind, M_bind, metaService_fetch, await.
  by rewrite Hm.
Qed.

(** ** The bounce registry *)

(** C2: an address with a bounce record in the configured store, both
    store calls answering: [checkEmailBounce] returns [true], the only
    update it issues sets [ttl] to [floor(now / 1000) + 604800], and the
    record carries that deadline afterwards, whatever it held before. *)
Theorem checkEmailBounce_hit_refreshes w t a (item : gmap string AttributeValue) :
  configured w t →
  ddb_items w !! record_key t a = Some item →
  ddb_fault w (GetItemCommand (getItemCmd t a)) = None →
  ddb_fault w (UpdateItemCommand (updateItemCmd t a (clock_ms w))) = None →
  ∃ w', checkEmailBounce a w = (Ok true, w') ∧
        updates_of (issued w w') = [updateItemCmd t a (clock_ms w)] ∧
        ddb_items w' =
          <[record_key t a :=
              <["ttl" := AttrN (pretty (clock_ms w / 1000 + 604800))]> item]>
            (ddb_items w).
Proof.
  intros Hc Hi Hg Hu.
  rewrite (checkEmailBounce_hit w t a item) by done.
  eexists. split; [reflexivity|]. split; [|reflexivity].
  erewrite issued_app; [|reflexivity]. reflexivity.
Qed.

Lemma checkEmailBounce_hit_refreshes_witness :
  ∃ w', checkEmailBounce "bounced@example.com" w_hit = (Ok true, w') ∧
        updates_of (issued w_hit w') =
          [updateItemCmd "bounces" "bounced@example.com" 1700000000123] ∧
        ddb_items w' =
          <[record_key "bounces" "bounced@example.com" :=
              <["ttl" := AttrN (pretty (1700000000123 / 1000 + 604800))]> item0]>
            (ddb_items w_hit).
Proof.
  apply (checkEmailBounce_hit_refreshes w_hit "bounces" "bounced@example.com" item0).
  - split; reflexivity.
  - vm_compute. reflexivity.
  - reflexivity.
  - reflexivity.
Defined.

(** C3: an address without a bounce record in the configured store:
    [checkEmailBounce] returns [false] and issues no update, and neither
    it nor a [sendEmail] to that address changes the table; the record is
    still absent. *)
Theorem checkEmailBounce_miss_no_update w t a :
  configured w t →
  ddb_items w !! record_key t a = None →
  ddb_fault w (GetItemCommand (getItemCmd t a)) = None →
  (∃ w', checkEmailBounce a w = (Ok false, w') ∧
         updates_of (issued w w') = [] ∧
         ddb_items w' = ddb_items w) ∧
  (∀ cfg subject html text,
     let w'' := (sendEmail cfg a subject html text w).2 in
     updates_of (issued w w'') = [] ∧
     ddb_items w'' = ddb_items w ∧
     ddb_items w'' !! record_key t a = None).
Proof.
  intros Hc Hi Hg.
  assert (Hb : ∃ w', checkEmailBounce a w = (Ok false, w') ∧
                     updates_of (issued w w') = [] ∧ ddb_items w' = ddb_items w).
  { rewrite (checkEmailBounce_miss w t a) by done.
    eexists. split; [reflexivity|]. split; [|reflexivity].
    erewrite issued_app; [|reflexivity]. reflexivity. }
  split; [exact Hb|].
  intros cfg subject html text w''. subst w''.
  destruct (meta_reply w true) as [e|m] eqn:Hm.
  - rewrite (sendEmail_meta_down cfg w e) by done. simpl.
    by rewrite issued_refl.
  - destruct (sendEmail_after_gate cfg w m a subject html text Hm)
      as (r & w1 & w' & Hchk & -> & Hit & Hcl).
    destruct Hb as (w2 & Hchk2 & Hup & Hit2).
    rewrite Hchk in Hchk2. injection Hchk2 as -> ->.
    unfold issued in *. rewrite Hcl, Hit, Hit2. done.
Qed.

Lemma checkEmailBounce_miss_no_update_witness :
  (∃ w', checkEmailBounce "alice@example.com" w_clean = (Ok false, w') ∧
         updates_of (issued w_clean w') = [] ∧
         ddb_items w' = ddb_items w_clean) ∧
  (∀ cfg subject html text,
     let w'' := (sendEmail cfg "alice@example.com" subject html text w_clean).2 in
     updates_of (issued w_clean w'') = [] ∧
     ddb_items w'' = ddb_items w_clean ∧
     ddb_items w'' !! record_key "bounces" "alice@example.com" = None).
Proof.
  apply (checkEmailBounce_miss_no_update w_clean "bounces" "alice@example.com").
  - split; reflexivity.
  - reflexivity.
  - reflexivity.
Defined.

(** C4: the store is configured and the lookup call errors:
    [checkEmailBounce] throws the store's error; it does not answer
    [false]. *)
Theorem checkEmailBounce_lookup_error_propagates w t a e :
  configured w t →
  ddb_get (getItemCmd t a) w = inl e →
  (checkEmailBounce a w).1 = Throw e ∧
  (checkEmailBounce a w).1 ≠ Ok false.
Proof.
  intros Hc He. rewrite (checkEmailBounce_lookup_error w t a e) by done.
  split; [reflexivity|discriminate].
Qed.

Lemma checkEmailBounce_lookup_error_propagates_witness :
  (checkEmailBounce "bounced@example.com" w_down).1 = Throw ServiceUnavailable ∧
  (checkEmailBounce "bounced@example.com" w_down).1 ≠ Ok false.
Proof.
  apply (checkEmailBounce_lookup_error_propagates w_down "bounces").
  - split; reflexivity.
  - reflexivity.
Defined.

(** C9: when the lookup call errors, the lookup is the only store call
    made: no update is issued and the table is as it was. *)
Theorem checkEmailBounce_lookup_error_no_update w t a e :
  configured w t →
  ddb_get (getItemCmd t a) w = inl e →
  let w' := (checkEmailBounce a w).2 in
  issued w w' = [GetItemCommand (getItemCmd t a)] ∧
  updates_of (issued w w') = [] ∧
  ddb_items w' = ddb_items w.
Proof.
  intros Hc He. rewrite (checkEmailBounce_lookup_error w t a e) by done.
  cbv zeta. erewrite issued_app; [|reflexivity]. done.
Qed.

Lemma checkEmailBounce_lookup_error_no_update_witness :
  let w' := (checkEmailBounce "bounced@example.com" w_down).2 in
  issued w_down w' = [GetItemCommand (getItemCmd "bounces" "bounced@example.com")] ∧
  updates_of (issued w_down w') = [] ∧
  ddb_items w' = ddb_items w_down.
Proof.
  apply (checkEmailBounce_lookup_error_no_update w_down "bounces"
           "bounced@example.com" ServiceUnavailable).
  - split; reflexivity.
  - reflexivity.
Defined.

(** C6: with [BOUNCE_TABLE_NAME] unset (or empty), [checkEmailBounce]
    answers [false] for every address and leaves the world as it found
    it: no store call is made. *)
Theorem checkEmailBounce_unset_returns_false w :
  falsy (env w !! "BOUNCE_TABLE_NAME") = true →
  ∀ a, checkEmailBounce a w = (Ok false, w) ∧
       issued w (checkEmailBounce a w).2 = [].
Proof.
  intros Hf a. rewrite checkEmailBounce_unconfigured by done.
  split; [reflexivity|apply issued_refl].
Qed.

Lemma checkEmailBounce_unset_returns_false_witness :
  env w_unset !! "BOUNCE_TABLE_NAME" = None ∧
  ∀ a, checkEmailBounce a w_unset = (Ok false, w_unset) ∧
       issued w_unset (checkEmailBounce a w_unset).2 = [].
Proof.
  split; [reflexivity|].
  apply (checkEmailBounce_unset_returns_false w_unset). reflexivity.
Defined.

(** ** The dispatch guard *)

Lemma sendEmail_suppressed cfg w m w1 (to subject html text : string) :
  meta_reply w true = inr m →
  checkEmailBounce to w = (Ok true, w1) →
  sendEmail cfg to subject html text w =
    (Throw (new_Error (suppressed_message to)),
     set_logs (logs w1 ++ [LogError (suppressed_message to)]) w1).
Proof.
  intros Hm Hc. unfold sendEmail, mbind, M_bind, metaService_fetch, await.
  rewrite Hm. unfold mret at 1. unfold M_ret at 1. by rewrite Hc.
Qed.

Lemma sendEmail_clean cfg w m w1 (to subject html text : string) :
  meta_reply w true = inr m →
  checkEmailBounce to w = (Ok false, w1) →
  sendEmail cfg to subject html text w =
    let command :=
      sendEmailCommand m to subject text
        (htmlData cfg m (url cfg +:+ "/static-assets/mi-white.png")
           (url cfg +:+ "/settings/email") subject html) in
    let w2 := set_ses_calls (ses_calls w1 ++ [command]) w1 in
    match ses_reply w1 command with
    | inl e => (Throw e, set_logs (logs w2 ++ [LogErrorObj e]) w2)
    | inr out =>
        (Ok JsUndefined,
         set_logs (logs w2 ++ [LogInfo ("Message sent: " +:+ js_string (MessageId out))]) w2)
    end.
Proof.
  intros Hm Hc. unfold sendEmail, mbind, M_bind, metaService_fetch, await.
  rewrite Hm. unfold mret at 1. unfold M_ret at 1. rewrite Hc.
  unfold try_catch, client_send, logger_info, logger_error_obj, throw. simpl.
  by destruct (ses_reply w1 _).
Qed.

(** C5: a recipient with a bounce record (store configured and
    answering, metadata fetched): [sendEmail] throws the
    registered-on-bounce-table error, hands nothing to SES, and its whole
    outcome is the same for every subject, body and text: the message is
    never built. *)
Theorem sendEmail_suppressed_recipient cfg w m t to
    (item : gmap string AttributeValue) (subject html text : string) :
  meta_reply w true = inr m →
  configured w t →
  ddb_items w !! record_key t to = Some item →
  ddb_fault w (GetItemCommand (getItemCmd t to)) = None →
  ddb_fault w (UpdateItemCommand (updateItemCmd t to (clock_ms w))) = None →
  ∃ w',
    sendEmail cfg to subject html text w =
      (Throw (new_Error ("Email address " +:+ to +:+ " is registered on bounce table.")),
       w') ∧
    ses_calls w' = ses_calls w ∧
    ∀ subject' html' text' : string,
      sendEmail cfg to subject' html' text' w =
      sendEmail cfg to subject html text w.
Proof.
  intros Hm Hc Hi Hg Hu.
  pose proof (checkEmailBounce_hit w t to item Hc Hi Hg Hu) as Hchk.
  eexists. split; [|split].
  - by rewrite (sendEmail_suppressed cfg w m _ to subject html text Hm Hchk).
  - reflexivity.
  - intros subject' html' text'.
    by rewrite !(sendEmail_suppressed cfg w m _ to _ _ _ Hm Hchk).
Qed.

Lemma sendEmail_suppressed_recipient_witness :
  ∃ w',
    sendEmail cfg0 "bounced@example.com" "Hello" "<p>Hi</p>" "Hi" w_hit =
      (Throw (new_Error
         ("Email address " +:+ "bounced@example.com" +:+ " is registered on bounce table.")),
       w') ∧
    ses_calls w' = ses_calls w_hit ∧
    ∀ subject' html' text' : string,
      sendEmail cfg0 "bounced@example.com" subject' html' text' w_hit =
      sendEmail cfg0 "bounced@example.com" "Hello" "<p>Hi</p>" "Hi" w_hit.
Proof.
  apply (sendEmail_suppressed_recipient cfg0 w_hit meta0 "bounces"
           "bounced@example.com" item0).
  - reflexivity.
  - split; reflexivity.
  - vm_compute. reflexivity.
  - reflexivity.
  - reflexivity.
Defined.

(** C8, as the code has it: a recipient the gate lets through, the
    transport answering: [sendEmail] hands SES exactly the one command,
    writes the transport's message identifier to the log and resolves to
    [undefined]; the identifier is not returned. *)
Theorem sendEmail_clean_logs_identifier cfg w m w1 out
    (to subject html text : string) :
  let command :=
    sendEmailCommand m to subject text
      (htmlData cfg m (url cfg +:+ "/static-assets/mi-white.png")
         (url cfg +:+ "/settings/email") subject html) in
  meta_reply w true = inr m →
  checkEmailBounce to w = (Ok false, w1) →
  ses_reply w command = inr out →
  ∃ w',
    sendEmail cfg to subject html text w = (Ok JsUndefined, w') ∧
    ses_calls w' = ses_calls w ++ [command] ∧
    logs w' = logs w ++ [LogInfo ("Message sent: " +:+ js_string (MessageId out))].
Proof.
  intros command Hm Hc Hs.
  pose proof (checkEmailBounce_frame to w) as Hfr. rewrite Hc in Hfr.
  simpl in Hfr. unfold same_outside_store in Hfr.
  rewrite (sendEmail_clean cfg w m w1 to subject html text Hm Hc).
  fold command. cbv zeta.
  replace (ses_reply w1) with (ses_reply w) by (by rewrite Hfr).
  rewrite Hs. eexists. split; [reflexivity|]. simpl.
  by rewrite Hfr.
Qed.

Lemma sendEmail_clean_logs_identifier_witness :
  ∃ w',
    sendEmail cfg0 "alice@example.com" "Hello" "<p>Hi</p>" "Hi" w_clean =
      (Ok JsUndefined, w') ∧
    ses_calls w' =
      ses_calls w_clean ++
        [sendEmailCommand meta0 "alice@example.com" "Hello" "Hi"
           (htmlData cfg0 meta0 (url cfg0 +:+ "/static-assets/mi-white.png")
              (url cfg0 +:+ "/settings/email") "Hello" "<p>Hi</p>")] ∧
    logs w' =
      logs w_clean ++
        [LogInfo ("Message sent: " +:+ js_string (MessageId (mkSendEmailOutput (Some "0100018f-0001"))))].
Proof.
  apply (sendEmail_clean_logs_identifier cfg0 w_clean meta0
           (checkEmailBounce "alice@example.com" w_clean).2).
  - reflexivity.
  - vm_compute. reflexivity.
  - reflexivity.
Defined.

(** C8, as the claim words it, fails: SES answers with the identifier
    [0100018f-0001] for a clean recipient, and [sendEmail] resolves to
    [undefined], not to that identifier. *)
Lemma sendEmail_identifier_not_returned :
  let r := sendEmail cfg0 "alice@example.com" "Hello" "<p>Hi</p>" "Hi" w_clean in
  (checkEmailBounce "alice@example.com" w_clean).1 = Ok false ∧
  (∃ command, ses_calls r.2 = [command] ∧
     ses_reply w_clean command = inr (mkSendEmailOutput (Some "0100018f-0001"))) ∧
  r.1 = Ok JsUndefined ∧
  r.1 ≠ Ok (JsString "0100018f-0001").
Proof.
  cbv zeta. split; [vm_compute; reflexivity|]. split.
  - eexists. split; [vm_compute; reflexivity|reflexivity].
  - split; [vm_compute; reflexivity|].
    replace (sendEmail _ _ _ _ _ _).1 with (@Ok JsValue JsUndefined)
      by (vm_compute; reflexivity).
    discriminate.
Qed.

(** ** The eligibility evaluator *)

Lemma validateEmailForAccount_run w a m b w1 :
  meta_reply w false = inr m →
  profiles_fault w = None →
  checkEmailBounce a w = (Ok b, w1) →
  validateEmailForAccount a w =
    match validated_of w m a with
    | inl e => (Throw e, w1)
    | inr v => (Ok (verdict (countBy true a (profiles w)) b v), w1)
    end.
Proof.
  intros Hm Hp Hc.
  pose proof (checkEmailBounce_frame a w) as Hfr. rewrite Hc in Hfr.
  simpl in Hfr. unfold same_outside_store in Hfr.
  unfold validateEmailForAccount, mbind, M_bind, metaService_fetch, await,
    userProfilesRepository_countBy, validated_of.
  rewrite Hm. unfold mret at 1. unfold M_ret at 1. rewrite Hp, Hc.
  destruct (enableActiveEmailValidation m); [|reflexivity].
  unfold validateEmail, await.
  replace (validator_reply w1) with (validator_reply w) by (by rewrite Hfr).
  by destruct (validator_reply w _).
Qed.

Lemma validateEmailForAccount_inv w a r w' :
  validateEmailForAccount a w = (Ok r, w') →
  ∃ m b v,
    meta_reply w false = inr m ∧
    profiles_fault w = None ∧
    checkEmailBounce a w = (Ok b, w') ∧
    validated_of w m a = inr v ∧
    r = verdict (countBy true a (profiles w)) b v.
Proof.
  intros Hrun.
  destruct (meta_reply w false) as [e|m] eqn:Hm.
  { unfold validateEmailForAccount, mbind, M_bind, metaService_fetch, await in Hrun.
    by rewrite Hm in Hrun. }
  destruct (profiles_fault w) as [e|] eqn:Hp.
  { unfold validateEmailForAccount, mbind, M_bind, metaService_fetch, await,
      userProfilesRepository_countBy in Hrun.
    rewrite Hm in Hrun. unfold mret at 1 in Hrun. unfold M_ret at 1 in Hrun.
    by rewrite Hp in Hrun. }
  destruct (checkEmailBounce a w) as [[b|e] w1] eqn:Hc.
  - rewrite (validateEmailForAccount_run w a m b w1 Hm Hp Hc) in Hrun.
    destruct (validated_of w m a) as [e|v] eqn:Hv; [done|].
    injection Hrun as <- <-. by exists m, b, v.
  - unfold validateEmailForAccount, mbind, M_bind, metaService_fetch, await,
      userProfilesRepository_countBy in Hrun.
    rewrite Hm in Hrun. unfold mret at 1 in Hrun. unfold M_ret at 1 in Hrun.
    by rewrite Hp, Hc in Hrun.
Qed.

Lemma formatResult_of_valid v fr :
  formatResult_of v = Some fr → valid v = bool_decide (fr = fr_valid).
Proof.
  unfold formatResult_of. destruct (valid v).
  - by intros [= <-].
  - repeat case_match; by intros [= <-].
Qed.

(** The code's verdict against the specification's rule, on any count,
    any suppression answer and any validator result that reads as one of
    the five format results. *)
Lemma verdict_decision n b v fr :
  formatResult_of v = Some fr →
  available (verdict n b v) = spec_available n b fr ∧
  (available (verdict n b v) = false →
   reason (verdict n b v) = first_match (spec_precedence n b fr)).
Proof.
  intros Hfr. pose proof (formatResult_of_valid v fr Hfr) as Hv.
  unfold verdict, spec_available, spec_precedence. simpl. rewrite Hv.
  destruct (Z.eqb_spec n 0) as [->|Hn].
  - rewrite (bool_decide_eq_true_2 (0 = 0)) by done.
    rewrite (bool_decide_eq_false_2 (0 ≠ 0)) by (intros H; by apply H).
    split; [done|]. intros Hav. simpl.
    destruct b; simpl; [by destruct (bool_decide (fr = fr_valid))|].
    unfold formatResult_of in Hfr. rewrite Hv in Hfr.
    destruct (bool_decide (fr = fr_valid)) eqn:Hval; simpl in *; [done|].
    destruct (reason_is v "regex"); [by injection Hfr as <-|].
    destruct (reason_is v "disposable"); [by injection Hfr as <-|].
    destruct (reason_is v "mx"); [by injection Hfr as <-|].
    destruct (reason_is v "smtp"); [by injection Hfr as <-|].
    done.
  - rewrite (bool_decide_eq_false_2 (n = 0)) by done.
    rewrite (bool_decide_eq_true_2 (n ≠ 0)) by done.
    done.
Qed.

Lemma verdict_reason_iff n b v :
  is_Some (formatResult_of v) →
  (reason (verdict n b v) = None ↔ available (verdict n b v) = true) ∧
  (available (verdict n b v) = false →
   reason (verdict n b v) ∈
     [Some used; Some format; Some disposable; Some mx; Some smtp]).
Proof.
  intros [fr Hfr]. unfold verdict. simpl.
  destruct ((n =? 0) && valid v && negb b) eqn:Hav.
  { split; [done|done]. }
  destruct (n =? 0) eqn:Hn; simpl; [|split; [done|set_solver]].
  destruct b; simpl; [split; [done|set_solver]|].
  unfold formatResult_of in Hfr.
  simpl in Hav. rewrite andb_true_r in Hav. rewrite Hav in Hfr.
  destruct (reason_is v "regex"); [split; [done|set_solver]|].
  destruct (reason_is v "disposable"); [split; [done|set_solver]|].
  destruct (reason_is v "mx"); [split; [done|set_solver]|].
  destruct (reason_is v "smtp"); [split; [done|set_solver]|].
  done.
Qed.

(** An address verified on some account is reported as used, whatever
    the bounce table and the validator say. *)
Lemma verdict_used n b v : n ≠ 0 → verdict n b v = mkVerdict false (Some used).
Proof.
  intros Hn. unfold verdict.
  destruct (Z.eqb_spec n 0) as [->|_]; [done|reflexivity].
Qed.

Example verdict_suppressed :
  verdict 0 true (mkOutput true None) = mkVerdict false (Some smtp).
Proof. reflexivity. Qed.

Example verdict_disposable :
  verdict 0 false (mkOutput false (Some "disposable")) =
    mkVerdict false (Some disposable).
Proof. reflexivity. Qed.

Example verdict_all_clear :
  verdict 0 false (mkOutput true None) = mkVerdict true None.
Proof. reflexivity. Qed.

(** Outside the five format results the last branch is taken: an
    invalid result whose reason the code does not test for gives an
    unavailable verdict with no reason. *)
Example verdict_untested_reason :
  formatResult_of (mkOutput false (Some "typo")) = None ∧
  verdict 0 false (mkOutput false (Some "typo")) = mkVerdict false None.
Proof. split; reflexivity. Qed.

(** C1: whatever the three gathered values are (the count of verified
    accounts, the answer of [checkEmailBounce], a format result among the
    five), [validateEmailForAccount] returns
    [available = (count == 0) AND formatResult == valid AND NOT suppressed]
    and, when that is false, the reason of the first matching row of the
    precedence table: used, smtp (suppressed), format, disposable, mx,
    smtp (validator). *)
Theorem validateEmailForAccount_decision w a m b w1 v fr :
  meta_reply w false = inr m →
  profiles_fault w = None →
  checkEmailBounce a w = (Ok b, w1) →
  validated_of w m a = inr v →
  formatResult_of v = Some fr →
  let count := countBy true a (profiles w) in
  ∃ r,
    validateEmailForAccount a w = (Ok r, w1) ∧
    available r = spec_available count b fr ∧
    (available r = false → reason r = first_match (spec_precedence count b fr)).
Proof.
  intros Hm Hp Hc Hv Hfr count.
  rewrite (validateEmailForAccount_run w a m b w1 Hm Hp Hc), Hv.
  eexists. split; [reflexivity|]. by apply verdict_decision.
Qed.

Lemma validateEmailForAccount_decision_witness :
  let count := countBy true "bounced@example.com" (profiles w_hit_used) in
  count = 1 ∧
  ∃ r,
    validateEmailForAccount "bounced@example.com" w_hit_used =
      (Ok r, (checkEmailBounce "bounced@example.com" w_hit_used).2) ∧
    available r = spec_available count true fr_invalid_format ∧
    (available r = false →
     reason r = first_match (spec_precedence count true fr_invalid_format)).
Proof.
  split; [reflexivity|].
  apply (validateEmailForAccount_decision w_hit_used "bounced@example.com"
           meta0 true _ (mkOutput false (Some "regex")) fr_invalid_format).
  - reflexivity.
  - reflexivity.
  - vm_compute. reflexivity.
  - reflexivity.
  - reflexivity.
Defined.

(** C7: for every verdict [validateEmailForAccount] returns, the
    validator answering with one of the five format results: the reason
    is [null] exactly when [available] is true, and an unavailable
    verdict carries one of used, format, disposable, mx, smtp. *)
Theorem validateEmailForAccount_reason_iff_available w a r w' :
  (∀ v, validator_reply w (validator_options a) = inr v →
        is_Some (formatResult_of v)) →
  validateEmailForAccount a w = (Ok r, w') →
  (reason r = None ↔ available r = true) ∧
  (available r = false →
   reason r ∈ [Some used; Some format; Some disposable; Some mx; Some smtp]).
Proof.
  intros Hval Hrun.
  destruct (validateEmailForAccount_inv w a r w' Hrun)
    as (m & b & v & Hm & Hp & Hc & Hv & ->).
  apply verdict_reason_iff.
  unfold validated_of in Hv.
  destruct (enableActiveEmailValidation m).
  - by apply Hval.
  - injection Hv as <-. by eexists.
Qed.

Lemma validateEmailForAccount_reason_iff_available_witness :
  let r := mkVerdict false (Some disposable) in
  (validateEmailForAccount "dave@mailinator.example" w_disposable).1 = Ok r ∧
  (reason r = None ↔ available r = true) ∧
  (available r = false →
   reason r ∈ [Some used; Some format; Some disposable; Some mx; Some smtp]).
Proof.
  cbv zeta. split; [vm_compute; reflexivity|].
  apply (validateEmailForAccount_reason_iff_available w_disposable
           "dave@mailinator.example" _
           (validateEmailForAccount "dave@mailinator.example" w_disposable).2).
  - intros v Hv. vm_compute in Hv. injection Hv as <-. vm_compute. eauto.
  - vm_compute. reflexivity.
Defined.

(** C10: once the metadata and the account count are in,
    [validateEmailForAccount] runs [checkEmailBounce] whatever the count
    and whatever the validator will say, and leaves the world as that
    call leaves it; so for an address with a bounce record the deadline
    is moved to [floor(now / 1000) + 604800] by an eligibility check as
    well, also when the verdict is used or a format failure. *)
Theorem validateEmailForAccount_refreshes_record w a m :
  meta_reply w false = inr m →
  profiles_fault w = None →
  let w' := (validateEmailForAccount a w).2 in
  w' = (checkEmailBounce a w).2 ∧
  ∀ t (item : gmap string AttributeValue),
    configured w t →
    ddb_items w !! record_key t a = Some item →
    ddb_fault w (GetItemCommand (getItemCmd t a)) = None →
    ddb_fault w (UpdateItemCommand (updateItemCmd t a (clock_ms w))) = None →
    updates_of (issued w w') = [updateItemCmd t a (clock_ms w)] ∧
    ddb_items w' !! record_key t a =
      Some (<["ttl" := AttrN (pretty (clock_ms w / 1000 + 604800))]> item).
Proof.
  intros Hm Hp w'.
  assert (Hw : w' = (checkEmailBounce a w).2).
  { subst w'. destruct (checkEmailBounce a w) as [[b|e] w1] eqn:Hc.
    - rewrite (validateEmailForAccount_run w a m b w1 Hm Hp Hc).
      by destruct (validated_of w m a).
    - unfold validateEmailForAccount, mbind, M_bind, metaService_fetch, await,
        userProfilesRepository_countBy.
      rewrite Hm. unfold mret at 1. unfold M_ret at 1. by rewrite Hp, Hc. }
  split; [exact Hw|].
  intros t item Hcfg Hi Hg Hu. rewrite Hw.
  rewrite (checkEmailBounce_hit w t a item Hcfg Hi Hg Hu). simpl.
  split.
  - erewrite issued_app; [|reflexivity]. reflexivity.
  - apply lookup_insert_eq.
Qed.

Lemma validateEmailForAccount_refreshes_record_witness :
  let r := validateEmailForAccount "bounced@example.com" w_hit_used in
  r.1 = Ok (mkVerdict false (Some used)) ∧
  r.2 = (checkEmailBounce "bounced@example.com" w_hit_used).2 ∧
  updates_of (issued w_hit_used r.2) =
    [updateItemCmd "bounces" "bounced@example.com" 1700000000123] ∧
  ddb_items r.2 !! record_key "bounces" "bounced@example.com" =
    Some (<["ttl" := AttrN (pretty (1700000000123 / 1000 + 604800))]> item0).
Proof.
  cbv zeta. split; [vm_compute; reflexivity|].
  destruct (validateEmailForAccount_refreshes_record w_hit_used
              "bounced@example.com" meta0) as [Hw Hrec].
  - reflexivity.
  - reflexivity.
  - split; [exact Hw|].
    apply (Hrec "bounces" item0).
    + split; reflexivity.
    + vm_compute. reflexivity.
    + reflexivity.
    + reflexivity.
Defined.

(** * Further properties of the three methods *)

(** ** [checkEmailBounce]: failures, inversion, frame *)

Lemma checkEmailBounce_env w :
  falsy (env w !! "BOUNCE_TABLE_NAME") = true ∨ ∃ t, configured w t.
Proof.
  unfold configured.
  destruct (env w !! "BOUNCE_TABLE_NAME") as [t|]; [|by left].
  destruct (falsy (Some t)) eqn:Hf; [by left|right; by exists t].
Qed.

Lemma configured_unique w t t' : configured w t → configured w t' → t = t'.
Proof. intros [H1 _] [H2 _]. congruence. Qed.

Lemma configured_not_falsy w t :
  configured w t → falsy (env w !! "BOUNCE_TABLE_NAME") = false.
Proof. intros [-> Hf]. exact Hf. Qed.

(** With a record present the answer is [true] or an exception. *)
Lemma checkEmailBounce_record_outcome w t a (item : gmap string AttributeValue) :
  configured w t →
  ddb_items w !! record_key t a = Some item →
  (∃ e w', checkEmailBounce a w = (Throw e, w') ∧ ddb_items w' = ddb_items w) ∨
  (∃ w', checkEmailBounce a w = (Ok true, w')).
Proof.
  intros Hc Hi. rewrite (checkEmailBounce_configured w t a Hc).
  rewrite ddb_get_bounce.
  destruct (ddb_fault w (GetItemCommand _)) as [e|]; [left; by eexists _, _|].
  rewrite Hi. cbv zeta. rewrite ddb_update_bounce. simpl ddb_fault.
  destruct (ddb_fault w (UpdateItemCommand _)) as [e|].
  - left. by eexists _, _.
  - right. by eexists.
Qed.



(** X2: an address with a record in the configured table is never
    answered [false], whichever store call fails. *)
Theorem checkEmailBounce_record_never_false w t a
    (item : gmap string AttributeValue) :
  configured w t →
  ddb_items w !! record_key t a = Some item →
  (checkEmailBounce a w).1 ≠ Ok false.
Proof.
  intros Hc Hi.
  destruct (checkEmailBounce_record_outcome w t a item Hc Hi)
    as [(e & w' & -> & _)|(w' & ->)]; discriminate.
Qed.

Lemma checkEmailBounce_record_never_false_witness :
  (checkEmailBounce "bounced@example.com" w_update_down).1 ≠ Ok false.
Proof.
  apply (checkEmailBounce_record_never_false w_update_down "bounces"
           "bounced@example.com" item0).
  - split; reflexivity.
  - vm_compute. reflexivity.
Defined.

(** X3: the answer [true] is given only for an address that had a record
    in the configured table; one lookup and one update were made, and the
    table differs from before in the deadline of that record only. *)
Theorem checkEmailBounce_true_inv w a w' :
  checkEmailBounce a w = (Ok true, w') →
  ∃ t (item : gmap string AttributeValue),
    configured w t ∧
    ddb_items w !! record_key t a = Some item ∧
    issued w w' = [GetItemCommand (getItemCmd t a);
                   UpdateItemCommand (updateItemCmd t a (clock_ms w))] ∧
    ddb_items w' =
      <[record_key t a :=
          <["ttl" := AttrN (pretty (clock_ms w / 1000 + 604800))]> item]>
        (ddb_items w).
Proof.
  intros Hrun0. pose proof Hrun0 as Hrun.
  destruct (checkEmailBounce_env w) as [Hf|[t Hc]].
  { by rewrite checkEmailBounce_unconfigured in Hrun. }
  rewrite (checkEmailBounce_configured w t a Hc) in Hrun.
  rewrite ddb_get_bounce in Hrun.
  destruct (ddb_fault w (GetItemCommand _)) as [e|] eqn:Hg; [done|].
  destruct (ddb_items w !! record_key t a) as [item|] eqn:Hi; [|done].
  cbv zeta in Hrun. rewrite ddb_update_bounce in Hrun. simpl ddb_fault in Hrun.
  destruct (ddb_fault w (UpdateItemCommand _)) as [e|] eqn:Hu; [done|].
  exists t, item. split; [done|]. split; [done|].
  rewrite (checkEmailBounce_hit w t a item Hc Hi Hg Hu) in Hrun0.
  injection Hrun0 as <-. split; [|reflexivity].
  erewrite issued_app; [|reflexivity]. reflexivity.
Qed.

Lemma checkEmailBounce_true_inv_witness :
  ∃ t (item : gmap string AttributeValue),
    configured w_hit t ∧
    ddb_items w_hit !! record_key t "bounced@example.com" = Some item ∧
    issued w_hit (checkEmailBounce "bounced@example.com" w_hit).2 =
      [GetItemCommand (getItemCmd t "bounced@example.com");
       UpdateItemCommand (updateItemCmd t "bounced@example.com" (clock_ms w_hit))] ∧
    ddb_items (checkEmailBounce "bounced@example.com" w_hit).2 =
      <[record_key t "bounced@example.com" :=
          <["ttl" := AttrN (pretty (clock_ms w_hit / 1000 + 604800))]> item]>
        (ddb_items w_hit).
Proof.
  apply (checkEmailBounce_true_inv w_hit "bounced@example.com").
  vm_compute. reflexivity.
Defined.

(** X4: whatever happens, [checkEmailBounce] leaves every table entry
    other than the [Bounce_Info] record of the address it was asked about
    as it was: other addresses and other categories are not touched. *)
Theorem checkEmailBounce_other_entries w a (k : string * (string * string)) :
  k.2 ≠ (a, "Bounce_Info") →
  ddb_items (checkEmailBounce a w).2 !! k = ddb_items w !! k.
Proof.
  intros Hk.
  destruct (checkEmailBounce_env w) as [Hf|[t Hc]].
  { by rewrite checkEmailBounce_unconfigured. }
  rewrite (checkEmailBounce_configured w t a Hc), ddb_get_bounce.
  destruct (ddb_fault w (GetItemCommand _)) as [e|]; [done|].
  destruct (ddb_items w !! record_key t a) as [item|] eqn:Hi; [|done].
  cbv zeta. rewrite ddb_update_bounce. simpl ddb_fault.
  destruct (ddb_fault w (UpdateItemCommand _)) as [e|]; [done|].
  simpl. apply lookup_insert_ne.
  unfold record_key. intros <-. by apply Hk.
Qed.

Lemma checkEmailBounce_other_entries_witness :
  ddb_items (checkEmailBounce "carol@example.com" w_hit).2
    !! record_key "bounces" "bounced@example.com" =
  ddb_items w_hit !! record_key "bounces" "bounced@example.com".
Proof.
  apply (checkEmailBounce_other_entries w_hit "carol@example.com"
           (record_key "bounces" "bounced@example.com")).
  vm_compute. discriminate.
Defined.

(** X5: the window slides: after a check at one time and a second check
    at a later clock reading, the second check answers [true] again and
    the table is what a single check at the later reading would have
    left; the earlier deadline leaves no trace. *)
Theorem checkEmailBounce_twice w t a now2 (item : gmap string AttributeValue) :
  configured w t →
  ddb_items w !! record_key t a = Some item →
  ddb_fault w (GetItemCommand (getItemCmd t a)) = None →
  ddb_fault w (UpdateItemCommand (updateItemCmd t a (clock_ms w))) = None →
  ddb_fault w (UpdateItemCommand (updateItemCmd t a now2)) = None →
  let w1 := (checkEmailBounce a w).2 in
  let r2 := checkEmailBounce a (set_clock now2 w1) in
  r2.1 = Ok true ∧
  ddb_items r2.2 =
    <[record_key t a := <["ttl" := AttrN (pretty (now2 / 1000 + 604800))]> item]>
      (ddb_items w).
Proof.
  intros Hc Hi Hg Hu1 Hu2 w1 r2. subst r2 w1.
  rewrite (checkEmailBounce_hit w t a item Hc Hi Hg Hu1). simpl snd.
  erewrite (checkEmailBounce_hit _ t a); cycle 1.
  - exact Hc.
  - simpl. apply lookup_insert_eq.
  - exact Hg.
  - exact Hu2.
  - simpl. split; [reflexivity|].
    by rewrite !insert_insert_eq.
Qed.

Lemma checkEmailBounce_twice_witness :
  let w1 := (checkEmailBounce "bounced@example.com" w_hit).2 in
  let r2 := checkEmailBounce "bounced@example.com" (set_clock 1700000300999 w1) in
  r2.1 = Ok true ∧
  ddb_items r2.2 =
    <[record_key "bounces" "bounced@example.com" :=
        <["ttl" := AttrN (pretty (1700000300999 / 1000 + 604800))]> item0]>
      (ddb_items w_hit).
Proof.
  apply (checkEmailBounce_twice w_hit "bounces" "bounced@example.com"
           1700000300999 item0).
  - split; reflexivity.
  - vm_compute. reflexivity.
  - reflexivity.
  - reflexivity.
  - reflexivity.
Defined.

(** X6: the deadline written is a whole number of seconds [d] with
    [1000 d <= now + 7 days < 1000 d + 1000] in milliseconds: seven days
    after the check, rounded down to the second. *)
Theorem checkEmailBounce_deadline_bounds w t a (item : gmap string AttributeValue) :
  configured w t →
  ddb_items w !! record_key t a = Some item →
  ddb_fault w (GetItemCommand (getItemCmd t a)) = None →
  ddb_fault w (UpdateItemCommand (updateItemCmd t a (clock_ms w))) = None →
  ∃ d : Z,
    ddb_items (checkEmailBounce a w).2 !! record_key t a =
      Some (<["ttl" := AttrN (pretty d)]> item) ∧
    1000 * d ≤ clock_ms w + 604800000 < 1000 * d + 1000.
Proof.
  intros Hc Hi Hg Hu.
  rewrite (checkEmailBounce_hit w t a item Hc Hi Hg Hu). simpl.
  exists (clock_ms w / 1000 + 604800). split; [apply lookup_insert_eq|].
  pose proof (Z.div_mod (clock_ms w) 1000 ltac:(lia)) as Hdm.
  pose proof (Z.mod_pos_bound (clock_ms w) 1000 ltac:(lia)) as Hmod.
  lia.
Qed.

Lemma checkEmailBounce_deadline_bounds_witness :
  ∃ d : Z,
    ddb_items (checkEmailBounce "bounced@example.com" w_hit).2
      !! record_key "bounces" "bounced@example.com" =
      Some (<["ttl" := AttrN (pretty d)]> item0) ∧
    1000 * d ≤ clock_ms w_hit + 604800000 < 1000 * d + 1000.
Proof.
  apply (checkEmailBounce_deadline_bounds w_hit "bounces" "bounced@example.com" item0).
  - split; reflexivity.
  - vm_compute. reflexivity.
  - reflexivity.
  - reflexivity.
Defined.

(** ** [sendEmail]: failures, what reaches SES, what is logged *)

Lemma same_outside_store_fields w w' :
  same_outside_store w w' →
  logs w' = logs w ∧ ses_calls w' = ses_calls w ∧ ses_reply w' = ses_reply w.
Proof. unfold same_outside_store. intros ->. done. Qed.

Lemma checkEmailBounce_fields a w r w1 :
  checkEmailBounce a w = (r, w1) →
  logs w1 = logs w ∧ ses_calls w1 = ses_calls w ∧ ses_reply w1 = ses_reply w.
Proof.
  intros Hc. apply same_outside_store_fields.
  pose proof (checkEmailBounce_frame a w) as Hfr. by rewrite Hc in Hfr.
Qed.

Lemma sendEmail_gate_throws cfg w m e w1 (to subject html text : string) :
  meta_reply w true = inr m →
  checkEmailBounce to w = (Throw e, w1) →
  sendEmail cfg to subject html text w = (Throw e, w1).
Proof.
  intros Hm Hc. unfold sendEmail, mbind, M_bind, metaService_fetch, await.
  rewrite Hm. unfold mret at 1. unfold M_ret at 1. by rewrite Hc.
Qed.

(** X7: the gate lets the recipient through and SES rejects the command:
    [sendEmail] has called SES once, logs the error object and throws
    that same error. *)
Theorem sendEmail_transport_error cfg w m w1 e (to subject html text : string) :
  let command :=
    sendEmailCommand m to subject text
      (htmlData cfg m (url cfg +:+ "/static-assets/mi-white.png")
         (url cfg +:+ "/settings/email") subject html) in
  meta_reply w true = inr m →
  checkEmailBounce to w = (Ok false, w1) →
  ses_reply w command = inl e →
  ∃ w',
    sendEmail cfg to subject html text w = (Throw e, w') ∧
    ses_calls w' = ses_calls w ++ [command] ∧
    logs w' = logs w ++ [LogErrorObj e].
Proof.
  intros command Hm Hc Hs.
  destruct (checkEmailBounce_fields to w _ w1 Hc) as (Hl & Hsc & Hsr).
  rewrite (sendEmail_clean cfg w m w1 to subject html text Hm Hc).
  fold command. cbv zeta. rewrite Hsr, Hs.
  eexists. split; [reflexivity|]. simpl. by rewrite Hl, Hsc.
Qed.

Lemma sendEmail_transport_error_witness :
  ∃ w',
    sendEmail cfg0 "alice@example.com" "Hello" "<p>Hi</p>" "Hi" w_ses_down =
      (Throw MessageRejected, w') ∧
    ses_calls w' =
      ses_calls w_ses_down ++
        [sendEmailCommand meta0 "alice@example.com" "Hello" "Hi"
           (htmlData cfg0 meta0 (url cfg0 +:+ "/static-assets/mi-white.png")
              (url cfg0 +:+ "/settings/email") "Hello" "<p>Hi</p>")] ∧
    logs w' = logs w_ses_down ++ [LogErrorObj MessageRejected].
Proof.
  apply (sendEmail_transport_error cfg0 w_ses_down meta0
           (checkEmailBounce "alice@example.com" w_ses_down).2).
  - reflexivity.
  - vm_compute. reflexivity.
  - reflexivity.
Defined.

(** X8: when the bounce check throws (a store call failed), [sendEmail]
    throws the same error, does not call SES and, the check standing
    outside the [try], writes nothing to the log. *)
Theorem sendEmail_store_error cfg w m e (to subject html text : string) :
  meta_reply w true = inr m →
  (checkEmailBounce to w).1 = Throw e →
  let r := sendEmail cfg to subject html text w in
  r.1 = Throw e ∧
  r.2 = (checkEmailBounce to w).2 ∧
  ses_calls r.2 = ses_calls w ∧
  logs r.2 = logs w.
Proof.
  intros Hm He r. subst r.
  destruct (checkEmailBounce to w) as [res w1] eqn:Hc. simpl in He. subst res.
  destruct (checkEmailBounce_fields to w _ w1 Hc) as (Hl & Hsc & _).
  by rewrite (sendEmail_gate_throws cfg w m e w1 to subject html text Hm Hc).
Qed.

Lemma sendEmail_store_error_witness :
  let r := sendEmail cfg0 "bounced@example.com" "Hello" "<p>Hi</p>" "Hi" w_down in
  r.1 = Throw ServiceUnavailable ∧
  r.2 = (checkEmailBounce "bounced@example.com" w_down).2 ∧
  ses_calls r.2 = ses_calls w_down ∧
  logs r.2 = logs w_down.
Proof.
  apply (sendEmail_store_error cfg0 w_down meta0 ServiceUnavailable).
  - reflexivity.
  - vm_compute. reflexivity.
Defined.

(** X9: for a recipient with a record in the configured table,
    [sendEmail] ends in an exception and SES is not called, whether or
    not the metadata fetch and the store calls succeed. *)
Theorem sendEmail_record_never_sent cfg w t to
    (item : gmap string AttributeValue) (subject html text : string) :
  configured w t →
  ddb_items w !! record_key t to = Some item →
  let r := sendEmail cfg to subject html text w in
  (∃ e, r.1 = Throw e) ∧ ses_calls r.2 = ses_calls w.
Proof.
  intros Hc Hi r. subst r.
  destruct (meta_reply w true) as [e|m] eqn:Hm.
  { rewrite (sendEmail_meta_down cfg w e) by done. split; [by eexists|done]. }
  destruct (checkEmailBounce_record_outcome w t to item Hc Hi)
    as [(e & w' & Hchk & _)|(w' & Hchk)].
  - destruct (checkEmailBounce_fields to w _ w' Hchk) as (_ & Hsc & _).
    rewrite (sendEmail_gate_throws cfg w m e w' to subject html text Hm Hchk).
    split; [by eexists|done].
  - destruct (checkEmailBounce_fields to w _ w' Hchk) as (_ & Hsc & _).
    rewrite (sendEmail_suppressed cfg w m w' to subject html text Hm Hchk).
    split; [by eexists|done].
Qed.

Lemma sendEmail_record_never_sent_witness :
  let r := sendEmail cfg0 "bounced@example.com" "Hello" "<p>Hi</p>" "Hi"
             w_update_down in
  (∃ e, r.1 = Throw e) ∧ ses_calls r.2 = ses_calls w_update_down.
Proof.
  apply (sendEmail_record_never_sent cfg0 w_update_down "bounces"
           "bounced@example.com" item0).
  - split; reflexivity.
  - vm_compute. reflexivity.
Defined.

(** X10: one call of [sendEmail] hands SES at most one command, and that
    command is addressed to the recipient alone and carries the caller's
    subject and text: there is no retry and no other addressee. *)
Theorem sendEmail_at_most_one_send cfg w (to subject html text : string) :
  let w' := (sendEmail cfg to subject html text w).2 in
  ses_calls w' = ses_calls w ∨
  ∃ command,
    ses_calls w' = ses_calls w ++ [command] ∧
    ToAddresses command = [to] ∧
    Data (Subject command) = subject ∧
    Data (BodyText command) = text.
Proof.
  intros w'. subst w'.
  destruct (meta_reply w true) as [e|m] eqn:Hm.
  { rewrite (sendEmail_meta_down cfg w e) by done. by left. }
  destruct (checkEmailBounce to w) as [[[|]|e] w1] eqn:Hc;
    destruct (checkEmailBounce_fields to w _ w1 Hc) as (_ & Hsc & _).
  - rewrite (sendEmail_suppressed cfg w m w1 to subject html text Hm Hc).
    by left.
  - rewrite (sendEmail_clean cfg w m w1 to subject html text Hm Hc).
    right. eexists. cbv zeta.
    destruct (ses_reply w1 _); simpl; rewrite Hsc; done.
  - rewrite (sendEmail_gate_throws cfg w m e w1 to subject html text Hm Hc).
    by left.
Qed.

(** X11: [sendEmail] completes without exception only when the bounce
    check answered [false] and SES accepted the one command; the value
    it resolves to is [undefined] and the log gains the Message-sent
    line. *)
Theorem sendEmail_ok_inv cfg w v w' (to subject html text : string) :
  sendEmail cfg to subject html text w = (Ok v, w') →
  v = JsUndefined ∧
  (checkEmailBounce to w).1 = Ok false ∧
  ∃ command out,
    ses_reply w command = inr out ∧
    ToAddresses command = [to] ∧
    ses_calls w' = ses_calls w ++ [command] ∧
    logs w' = logs w ++ [LogInfo ("Message sent: " +:+ js_string (MessageId out))].
Proof.
  intros Hrun.
  destruct (meta_reply w true) as [e|m] eqn:Hm.
  { by rewrite (sendEmail_meta_down cfg w e) in Hrun. }
  destruct (checkEmailBounce to w) as [[[|]|e] w1] eqn:Hc;
    destruct (checkEmailBounce_fields to w _ w1 Hc) as (Hl & Hsc & Hsr).
  - by rewrite (sendEmail_suppressed cfg w m w1 to subject html text Hm Hc) in Hrun.
  - rewrite (sendEmail_clean cfg w m w1 to subject html text Hm Hc) in Hrun.
    cbv zeta in Hrun.
    destruct (ses_reply w1 _) as [e|out] eqn:Hs; [done|].
    injection Hrun as <- <-. split; [done|]. split; [done|].
    eexists _, out. rewrite <- Hsr. split; [exact Hs|].
    simpl. by rewrite Hl, Hsc.
  - by rewrite (sendEmail_gate_throws cfg w m e w1 to subject html text Hm Hc) in Hrun.
Qed.

Lemma sendEmail_ok_inv_witness :
  JsUndefined = JsUndefined ∧
  (checkEmailBounce "alice@example.com" w_clean).1 = Ok false ∧
  ∃ command out,
    ses_reply w_clean command = inr out ∧
    ToAddresses command = ["alice@example.com"] ∧
    ses_calls (sendEmail cfg0 "alice@example.com" "Hello" "<p>Hi</p>" "Hi" w_clean).2 =
      ses_calls w_clean ++ [command] ∧
    logs (sendEmail cfg0 "alice@example.com" "Hello" "<p>Hi</p>" "Hi" w_clean).2 =
      logs w_clean ++ [LogInfo ("Message sent: " +:+ js_string (MessageId out))].
Proof.
  apply (sendEmail_ok_inv cfg0 w_clean JsUndefined _
           "alice@example.com" "Hello" "<p>Hi</p>" "Hi").
  vm_compute. reflexivity.
Defined.

(** X12: a refused send still counts as a check: for a recipient with a
    record, [sendEmail] moves the deadline to
    [floor(now / 1000) + 604800] and logs the refusal as one error line. *)
Theorem sendEmail_suppressed_refreshes cfg w m t to
    (item : gmap string AttributeValue) (subject html text : string) :
  meta_reply w true = inr m →
  configured w t →
  ddb_items w !! record_key t to = Some item →
  ddb_fault w (GetItemCommand (getItemCmd t to)) = None →
  ddb_fault w (UpdateItemCommand (updateItemCmd t to (clock_ms w))) = None →
  let w' := (sendEmail cfg to subject html text w).2 in
  ddb_items w' !! record_key t to =
    Some (<["ttl" := AttrN (pretty (clock_ms w / 1000 + 604800))]> item) ∧
  logs w' =
    logs w ++ [LogError ("Email address " +:+ to +:+ " is registered on bounce table.")].
Proof.
  intros Hm Hc Hi Hg Hu w'. subst w'.
  pose proof (checkEmailBounce_hit w t to item Hc Hi Hg Hu) as Hchk.
  rewrite (sendEmail_suppressed cfg w m _ to subject html text Hm Hchk).
  simpl. split; [apply lookup_insert_eq|reflexivity].
Qed.

Lemma sendEmail_suppressed_refreshes_witness :
  let w' := (sendEmail cfg0 "bounced@example.com" "Hello" "<p>Hi</p>" "Hi" w_hit).2 in
  ddb_items w' !! record_key "bounces" "bounced@example.com" =
    Some (<["ttl" := AttrN (pretty (clock_ms w_hit / 1000 + 604800))]> item0) ∧
  logs w' =
    logs w_hit ++
      [LogError ("Email address " +:+ "bounced@example.com" +:+
                 " is registered on bounce table.")].
Proof.
  apply (sendEmail_suppressed_refreshes cfg0 w_hit meta0 "bounces"
           "bounced@example.com" item0).
  - reflexivity.
  - split; reflexivity.
  - vm_compute. reflexivity.
  - reflexivity.
  - reflexivity.
Defined.

(** ** [sendEmail]: the rendered body *)

Lemma string_append_assoc (a b c : string) : (a +:+ b) +:+ c = a +:+ (b +:+ c).
Proof.
  induction a as [|x a IH]; [reflexivity|].
  change (String x ((a +:+ b) +:+ c) = String x (a +:+ b +:+ c)).
  by rewrite IH.
Qed.

Lemma embed_here (x post : string) : x +:+ post = EmptyString +:+ x +:+ post.
Proof. reflexivity. Qed.

Lemma embed_under (a pre x post r : string) :
  r = pre +:+ x +:+ post → a +:+ r = (a +:+ pre) +:+ x +:+ post.
Proof. intros ->. by rewrite string_append_assoc. Qed.

(** X13: the caller's [html] goes into the body as it is, between a
    prefix and a suffix that do not depend on it: nothing is escaped or
    stripped. *)
Theorem htmlData_embeds_html cfg m (iconUrl emailSettingUrl subject : string) :
  ∃ pre post : string, ∀ html : string,
    htmlData cfg m iconUrl emailSettingUrl subject html = pre +:+ html +:+ post.
Proof.
  eexists _, _. intros html. unfold htmlData.
  do 13 apply embed_under. apply embed_here.
Qed.

(** ** [validateEmailForAccount]: failures, frame, the used verdict *)

Lemma validateEmailForAccount_meta_down w a e :
  meta_reply w false = inl e →
  validateEmailForAccount a w = (Throw e, w).
Proof.
  intros Hm. unfold validateEmailForAccount, mbind, M_bind, metaService_fetch, await.
  by rewrite Hm.
Qed.

Lemma validateEmailForAccount_profiles_down w a m e :
  meta_reply w false = inr m →
  profiles_fault w = Some e →
  validateEmailForAccount a w = (Throw e, w).
Proof.
  intros Hm Hp.
  unfold validateEmailForAccount, mbind, M_bind, metaService_fetch, await,
    userProfilesRepository_countBy.
  rewrite Hm. unfold mret at 1. unfold M_ret at 1. by rewrite Hp.
Qed.

Lemma validateEmailForAccount_gate_throws w a m e w1 :
  meta_reply w false = inr m →
  profiles_fault w = None →
  checkEmailBounce a w = (Throw e, w1) →
  validateEmailForAccount a w = (Throw e, w1).
Proof.
  intros Hm Hp Hc.
  unfold validateEmailForAccount, mbind, M_bind, metaService_fetch, await,
    userProfilesRepository_countBy.
  rewrite Hm. unfold mret at 1. unfold M_ret at 1. by rewrite Hp, Hc.
Qed.

Lemma countBy_nonzero a rows :
  countBy true a rows ≠ 0 ↔
  ∃ p, p ∈ rows ∧ emailVerified p = true ∧ profile_email p = Some a.
Proof.
  unfold countBy.
  destruct (filter (λ p, emailVerified p = true ∧ profile_email p = Some a) rows)
    as [|p l] eqn:Hf.
  - split; [done|]. intros (p & Hin & Hv & He).
    assert (Hp : p ∈ filter (λ p, emailVerified p = true ∧ profile_email p = Some a)
                   rows) by (apply list_elem_of_filter; done).
    rewrite Hf in Hp. by apply not_elem_of_nil in Hp.
  - split; [|simpl; lia]. intros _. exists p.
    assert (Hp : p ∈ filter (λ p, emailVerified p = true ∧ profile_email p = Some a)
                   rows) by (rewrite Hf; left).
    apply list_elem_of_filter in Hp as [[Hv He] Hin]. done.
Qed.

Lemma verdict_used_iff n b v : reason (verdict n b v) = Some used ↔ n ≠ 0.
Proof.
  split.
  - intros Hr Hn. subst n. unfold verdict in Hr. simpl in Hr.
    destruct (valid v && negb b); [done|]. simpl in Hr.
    destruct b; [done|]. by repeat case_match.
  - intros Hn. by rewrite verdict_used.
Qed.

(** X14: when the metadata fetch or the profile count fails,
    [validateEmailForAccount] throws that error before anything else
    happens: the world is untouched, so no store call was made and no
    deadline moved. *)
Theorem validateEmailForAccount_early_failure w a e :
  meta_reply w false = inl e ∨
  ((∃ m, meta_reply w false = inr m) ∧ profiles_fault w = Some e) →
  validateEmailForAccount a w = (Throw e, w).
Proof.
  intros [Hm|[[m Hm] Hp]].
  - by apply validateEmailForAccount_meta_down.
  - by apply (validateEmailForAccount_profiles_down w a m).
Qed.

Lemma validateEmailForAccount_early_failure_witness :
  validateEmailForAccount "bounced@example.com" w_profiles_down =
    (Throw QueryFailedError, w_profiles_down).
Proof.
  apply validateEmailForAccount_early_failure.
  right. split; [by eexists|reflexivity].
Defined.

(** X15: when the validator rejects (throws), [validateEmailForAccount]
    throws that error, and the world is the one the bounce check left:
    the refresh of a record is not undone. *)
Theorem validateEmailForAccount_validator_error w a m b w1 e :
  meta_reply w false = inr m →
  enableActiveEmailValidation m = true →
  profiles_fault w = None →
  checkEmailBounce a w = (Ok b, w1) →
  validator_reply w (validator_options a) = inl e →
  validateEmailForAccount a w = (Throw e, w1).
Proof.
  intros Hm Hen Hp Hc Hv.
  rewrite (validateEmailForAccount_run w a m b w1 Hm Hp Hc).
  unfold validated_of. by rewrite Hen, Hv.
Qed.

Lemma validateEmailForAccount_validator_error_witness :
  validateEmailForAccount "bounced@example.com" w_validator_down =
    (Throw DnsTimeout, (checkEmailBounce "bounced@example.com" w_validator_down).2) ∧
  ddb_items (checkEmailBounce "bounced@example.com" w_validator_down).2
    ≠ ddb_items w_validator_down.
Proof.
  split.
  - apply (validateEmailForAccount_validator_error w_validator_down
             "bounced@example.com" meta0 true).
    + reflexivity.
    + reflexivity.
    + reflexivity.
    + vm_compute. reflexivity.
    + reflexivity.
  - intros Heq.
    assert (H : ddb_items (checkEmailBounce "bounced@example.com" w_validator_down).2
                  !! record_key "bounces" "bounced@example.com"
                = ddb_items w_validator_down
                  !! record_key "bounces" "bounced@example.com")
      by (by rewrite Heq).
    vm_compute in H. discriminate.
Defined.

(** X16: with active validation switched off the validator is not
    consulted: the verdict is available exactly when no verified account
    holds the address and the bounce check answered [false], and the
    only reasons are used and smtp. *)
Theorem validateEmailForAccount_validation_off w a m b w1 :
  meta_reply w false = inr m →
  enableActiveEmailValidation m = false →
  profiles_fault w = None →
  checkEmailBounce a w = (Ok b, w1) →
  let count := countBy true a (profiles w) in
  validateEmailForAccount a w =
    (Ok (mkVerdict (bool_decide (count = 0) && negb b)
           (if bool_decide (count = 0) && negb b then None
            else if bool_decide (count = 0) then Some smtp else Some used)),
     w1).
Proof.
  intros Hm Hen Hp Hc count.
  rewrite (validateEmailForAccount_run w a m b w1 Hm Hp Hc).
  unfold validated_of. rewrite Hen. unfold verdict. simpl valid.
  fold count. rewrite andb_true_r.
  destruct (Z.eqb_spec count 0) as [Hz|Hz].
  - rewrite bool_decide_eq_true_2 by done. by destruct b.
  - by rewrite bool_decide_eq_false_2 by done.
Qed.

Lemma validateEmailForAccount_validation_off_witness :
  validator_reply w_validation_off (validator_options "alice@example.com") =
    inl DnsTimeout ∧
  let count := countBy true "alice@example.com" (profiles w_validation_off) in
  validateEmailForAccount "alice@example.com" w_validation_off =
    (Ok (mkVerdict (bool_decide (count = 0) && negb false)
           (if bool_decide (count = 0) && negb false then None
            else if bool_decide (count = 0) then Some smtp else Some used)),
     (checkEmailBounce "alice@example.com" w_validation_off).2).
Proof.
  split; [reflexivity|].
  apply (validateEmailForAccount_validation_off w_validation_off
           "alice@example.com" meta_off false).
  - reflexivity.
  - reflexivity.
  - reflexivity.
  - vm_compute. reflexivity.
Defined.

(** X17: a returned verdict has the reason used exactly when some
    profile holds the address with [emailVerified] set; profiles that
    hold it unverified, or hold another address, do not count. *)
Theorem validateEmailForAccount_used_iff w a r w' :
  validateEmailForAccount a w = (Ok r, w') →
  (reason r = Some used ↔
   ∃ p, p ∈ profiles w ∧ emailVerified p = true ∧ profile_email p = Some a).
Proof.
  intros Hrun.
  destruct (validateEmailForAccount_inv w a r w' Hrun)
    as (m & b & v & _ & _ & _ & _ & ->).
  rewrite verdict_used_iff. apply countBy_nonzero.
Qed.

Lemma validateEmailForAccount_used_iff_witness :
  (validateEmailForAccount "bounced@example.com" w_hit_used).1 =
    Ok (mkVerdict false (Some used)) ∧
  (reason (mkVerdict false (Some used)) = Some used ↔
   ∃ p, p ∈ profiles w_hit_used ∧ emailVerified p = true
        ∧ profile_email p = Some "bounced@example.com").
Proof.
  split; [vm_compute; reflexivity|].
  apply (validateEmailForAccount_used_iff w_hit_used "bounced@example.com" _
           (validateEmailForAccount "bounced@example.com" w_hit_used).2).
  vm_compute. reflexivity.
Defined.

(** X18: [validateEmailForAccount] never hands anything to SES and never
    writes to the log, whatever its collaborators answer. *)
Theorem validateEmailForAccount_no_mail_no_log w a :
  let w' := (validateEmailForAccount a w).2 in
  ses_calls w' = ses_calls w ∧ logs w' = logs w.
Proof.
  intros w'. subst w'.
  destruct (meta_reply w false) as [e|m] eqn:Hm.
  { by rewrite (validateEmailForAccount_meta_down w a e). }
  destruct (profiles_fault w) as [e|] eqn:Hp.
  { by rewrite (validateEmailForAccount_profiles_down w a m e). }
  destruct (checkEmailBounce a w) as [[b|e] w1] eqn:Hc;
    destruct (checkEmailBounce_fields a w _ w1 Hc) as (Hl & Hsc & _).
  - rewrite (validateEmailForAccount_run w a m b w1 Hm Hp Hc).
    by destruct (validated_of w m a).
  - by rewrite (validateEmailForAccount_gate_throws w a m e w1 Hm Hp Hc).
Qed.

End EmailService.
